(** * run8n-templates: the two pydantic-ai example scripts

    A shallow embedding of
      - ai-workflows/examples/simple_agent.py     (module [simple_agent])
      - ai-workflows/examples/durable_workflow.py (module [durable_workflow])

    Both scripts are call sites of two external libraries (pydantic_ai and
    dbos).  A script is embedded as a finite tree of external calls; the
    libraries are an arbitrary [oracle] that answers each call with a value
    or with an exception, and may look at everything that happened before.
    Running a script against an oracle yields the trace of the calls it made
    and either the value it returned or the exception it raised. *)

From stdpp Require Import base strings gmap.

Local Open Scope string_scope.
Local Open Scope list_scope.

(** ** Python values *)

(** The dataclass of durable_workflow.py, lines 14-18. *)
Record ResearchResult : Type := mkResearchResult {
  query : string;
  research : string;
  summary : string;
}.

(** The values the two entry points can hand back to their host. *)
#[warnings="-register-all"]
Inductive pyval : Type :=
| VStr (s : string)
| VInt (n : Z)
| VDict (items : list (string * pyval))
| VResearchResult (r : ResearchResult).

(** [d[key]] on a dict literal; as in Python the last binding of a key wins,
    anything that is not a dict has no items. *)
Fixpoint assoc_last (key : string) (items : list (string * pyval)) : option pyval :=
  match items with
  | [] => None
  | (k, v) :: rest =>
      match assoc_last key rest with
      | Some w => Some w
      | None => if String.eqb k key then Some v else None
      end
  end.

Definition dict_get (key : string) (v : pyval) : option pyval :=
  match v with
  | VDict items => assoc_last key items
  | _ => None
  end.

Definition dict_keys (v : pyval) : list string :=
  match v with
  | VDict items => map fst items
  | _ => []
  end.

Definition is_dict (v : pyval) : bool :=
  match v with VDict _ => true | _ => false end.

(** [isinstance(v, ResearchResult)]. *)
Definition is_ResearchResult (v : pyval) : bool :=
  match v with VResearchResult _ => true | _ => false end.

(** The fields of a [ResearchResult], by name and in declaration order. *)
Definition ResearchResult_fields (r : ResearchResult) : list (string * pyval) :=
  [("query", VStr (query r)); ("research", VStr (research r)); ("summary", VStr (summary r))].

(** ** The external libraries *)

(** pydantic_ai: an agent binds a model identifier and a system prompt. *)
Record Agent : Type := mkAgent {
  agent_model : string;
  agent_system_prompt : string;
}.

(** What [agent.run] resolves to: [result.data] and [result.usage]. *)
Record Usage : Type := mkUsage {
  request_tokens : Z;
  response_tokens : Z;
}.

Record AgentRunResult : Type := mkAgentRunResult {
  data : string;
  usage : Usage;
}.

(** How a Python call can fail to fit the signature of its callee. *)
Inductive bind_error : Type :=
| UnexpectedKeyword (name : string)
| MultipleValues (name : string)
| TooManyPositional (given : nat)
| MissingArgument (name : string).

(** Exceptions: the interpreter's TypeError for a call that does not bind,
    and whatever an external library raises. *)
Inductive pyexn : Type :=
| TypeError (why : bind_error)
| LibraryError (cls : string) (msg : string).

(** The decorators of dbos mark a function as a step or as a workflow. *)
Inductive unit_kind : Type := Step | Workflow.

(** The calls the scripts make into the libraries, indexed by what the call
    gives back. *)
Inductive call : Type -> Type :=
| DbosLaunch (database_url : option string) : call unit
| DbosRegister (kind : unit_kind) (name : string) : call unit
| StepBegin (name : string) (arg : string) : call unit
| StepEnd (name : string) (out : string) : call unit
| WorkflowBegin (name : string) (args : list string) (kwargs : list (string * string)) : call unit
| WorkflowEnd (name : string) (out : pyval) : call unit
| AgentNew (model : string) (system_prompt : string) : call Agent
| AgentRun (agent : Agent) (prompt : string) : call AgentRunResult.

(** ** Scripts as trees of calls

    [Try body handler k] is Python's [try: body / except Exception as e:
    handler e], followed by [k]: it is how a script would catch, retry or
    replace a failure.  Neither script has one. *)

Inductive prog (A : Type) : Type :=
| Ret (a : A)
| Raise (e : pyexn)
| Environ (key : string) (k : option string -> prog A)
| Ext {X : Type} (c : call X) (k : X -> prog A)
| Try {X : Type} (body : prog X) (handler : pyexn -> prog X) (k : X -> prog A).

Arguments Ret {A} a.
Arguments Raise {A} e.
Arguments Environ {A} key k.
Arguments Ext {A X} c k.
Arguments Try {A X} body handler k.

Fixpoint bind {A B : Type} (p : prog A) (f : A -> prog B) : prog B :=
  match p with
  | Ret a => f a
  | Raise e => Raise e
  | Environ key k => Environ key (fun v => bind (k v) f)
  | Ext c k => Ext c (fun x => bind (k x) f)
  | Try body handler k => Try body handler (fun x => bind (k x) f)
  end.

#[global] Instance prog_ret : MRet prog := @Ret.
#[global] Instance prog_bind : MBind prog := fun A B f p => bind p f.

(** [os.environ.get(key)] *)
Definition os_environ_get (key : string) : prog (option string) := Environ key Ret.

(** One call into a library. *)
Definition ext {X : Type} (c : call X) : prog X := Ext c Ret.

(** ** Traces and oracles *)

Inductive entry : Type :=
| Read (key : string) (value : option string)
| Called {X : Type} (c : call X) (r : pyexn + X).

Definition trace : Type := list entry.

Definition oracle : Type := trace -> forall X : Type, call X -> pyexn + X.

(** Runs [p] in a process whose environment is [environ], the libraries
    answering as [o] says, after the history [h].  An exception ends the run
    unless a [Try] around it hands it to a handler. *)
Fixpoint run {A : Type} (environ : gmap string string) (o : oracle) (h : trace)
    (p : prog A) : trace * (pyexn + A) :=
  match p with
  | Ret a => (h, inr a)
  | Raise e => (h, inl e)
  | Environ key k =>
      run environ o (h ++ [Read key (environ !! key)]) (k (environ !! key))
  | Ext c k =>
      match o h _ c with
      | inl e => (h ++ [Called c (inl e)], inl e)
      | inr x => run environ o (h ++ [Called c (inr x)]) (k x)
      end
  | Try body handler k =>
      match run environ o h body with
      | (h', inr x) => run environ o h' (k x)
      | (h', inl e) =>
          match run environ o h' (handler e) with
          | (h'', inr x) => run environ o h'' (k x)
          | (h'', inl e') => (h'', inl e')
          end
      end
  end.

(** ** Reading a trace *)

(** The environment variables read, in order. *)
Definition environ_reads (t : trace) : list string :=
  flat_map (fun en => match en with Read key _ => [key] | Called _ _ => [] end) t.

(** The exceptions the libraries raised, in order. *)
Definition failures (t : trace) : list pyexn :=
  flat_map (fun en =>
    match en with
    | Called _ (inl e) => [e]
    | _ => []
    end) t.

(** The awaited [agent.run] calls: agent, prompt and answer. *)
Definition agent_runs (t : trace) : list (Agent * string * (pyexn + AgentRunResult)) :=
  flat_map (fun en =>
    match en with
    | Called c r =>
        match c in call X return pyexn + X -> _ with
        | AgentRun a p => fun r => [(a, p, r)]
        | _ => fun _ => []
        end r
    | Read _ _ => []
    end) t.

(** The [Agent(...)] constructions: model identifier and system prompt. *)
Definition agent_news (t : trace) : list (string * string) :=
  flat_map (fun en =>
    match en with
    | Called c _ =>
        match c with
        | AgentNew m sp => [(m, sp)]
        | _ => []
        end
    | Read _ _ => []
    end) t.

(** The steps entered, with the argument each one received. *)
Definition step_inputs (t : trace) : list (string * string) :=
  flat_map (fun en =>
    match en with
    | Called c _ =>
        match c with
        | StepBegin name arg => [(name, arg)]
        | _ => []
        end
    | Read _ _ => []
    end) t.

(** The steps that completed, with the value each one returned. *)
Definition step_outputs (t : trace) : list (string * string) :=
  flat_map (fun en =>
    match en with
    | Called c (inr _) =>
        match c with
        | StepEnd name out => [(name, out)]
        | _ => []
        end
    | _ => []
    end) t.

(** The [dbos.launch] calls, with the connection string each one was given. *)
Definition launches (t : trace) : list (option string) :=
  flat_map (fun en =>
    match en with
    | Called c _ =>
        match c with
        | DbosLaunch url => [url]
        | _ => []
        end
    | Read _ _ => []
    end) t.

(** ** A mocked pair of libraries

    dbos always succeeds, [Agent(...)] builds the agent it is asked for, and
    the n-th [agent.run] resolves to the n-th canned reply (a mock with a
    list of side effects; it raises StopIteration when the list is used up). *)
Definition mock (replies : list AgentRunResult) : oracle :=
  fun h X c =>
    match c in call X return pyexn + X with
    | DbosLaunch _ => inr tt
    | DbosRegister _ _ => inr tt
    | StepBegin _ _ => inr tt
    | StepEnd _ _ => inr tt
    | WorkflowBegin _ _ _ => inr tt
    | WorkflowEnd _ _ => inr tt
    | AgentNew m sp => inr (mkAgent m sp)
    | AgentRun _ _ =>
        match nth_error replies (length (agent_runs h)) with
        | Some r => inr r
        | None => inl (LibraryError "StopIteration" "")
        end
    end.

(** The number of library calls made so far. *)
Definition calls_made (t : trace) : nat :=
  length (flat_map (fun en => match en with Called _ _ => [()] | Read _ _ => [] end) t).

(** A mock whose n-th library call (counting from 0, over all calls) raises
    [e]; the calls before it behave as in [mock]. *)
Definition mock_failing_at (n : nat) (e : pyexn) (replies : list AgentRunResult) : oracle :=
  fun h X c => if Nat.eqb (calls_made h) n then inl e else mock replies h X c.

(** ** Calling a Python function

    A parameter list, and the binding of positional and keyword arguments to
    it in the interpreter's order: positionals fill the parameters from the
    left, keywords must name a parameter that is still free, surplus
    positionals are refused, and a parameter left free takes its default or
    is reported missing.  The annotations of the scripts make every argument
    a string. *)
Record param : Type := mkParam {
  param_name : string;
  param_default : option string;
}.

Fixpoint bind_positional (ps : list param) (args : list string)
    (ns : gmap string string) : gmap string string :=
  match ps, args with
  | p :: ps', a :: args' => bind_positional ps' args' (<[param_name p := a]> ns)
  | _, _ => ns
  end.

Fixpoint bind_keywords (ps : list param) (kwargs : list (string * string))
    (ns : gmap string string) : bind_error + gmap string string :=
  match kwargs with
  | [] => inr ns
  | (k, v) :: rest =>
      if existsb (String.eqb k) (map param_name ps) then
        match ns !! k with
        | Some _ => inl (MultipleValues k)
        | None => bind_keywords ps rest (<[k := v]> ns)
        end
      else inl (UnexpectedKeyword k)
  end.

Fixpoint bind_defaults (ps : list param) (ns : gmap string string)
    : bind_error + gmap string string :=
  match ps with
  | [] => inr ns
  | p :: ps' =>
      match ns !! param_name p, param_default p with
      | Some _, _ => bind_defaults ps' ns
      | None, Some d => bind_defaults ps' (<[param_name p := d]> ns)
      | None, None => inl (MissingArgument (param_name p))
      end
  end.

Definition bind_args (ps : list param) (args : list string)
    (kwargs : list (string * string)) : bind_error + gmap string string :=
  match bind_keywords ps kwargs (bind_positional ps args ∅) with
  | inl why => inl why
  | inr ns =>
      if Nat.ltb (length ps) (length args)
      then inl (TooManyPositional (length args))
      else bind_defaults ps ns
  end.

(** A call of a function with parameters [ps], positional arguments [args]
    and keyword arguments [kwargs]. *)
Definition invoke {A : Type} (ps : list param) (f : gmap string string -> prog A)
    (args : list string) (kwargs : list (string * string)) : prog A :=
  match bind_args ps args kwargs with
  | inl why => Raise (TypeError why)
  | inr ns => f ns
  end.

(** ** dbos decorators

    The engine is not part of the repository.  A decorated function is taken
    as the engine runs it the first time: the engine is told that the unit
    begins, the function runs once with the arguments of the call, the engine
    is told what it returned, and the caller gets that value.  Either
    notification can raise (the checkpoint store, say, is away).  Replaying a
    recorded step instead of running it is the engine's own business. *)
Definition dbos_step (name : string) (f : string -> prog string) (arg : string)
    : prog string :=
  ext (StepBegin name arg);;
  out ← f arg;
  ext (StepEnd name out);;
  mret out.

Definition dbos_workflow (name : string) (ps : list param)
    (f : gmap string string -> prog pyval)
    (args : list string) (kwargs : list (string * string)) : prog pyval :=
  ext (WorkflowBegin name args kwargs);;
  out ← invoke ps f args kwargs;
  ext (WorkflowEnd name out);;
  mret out.

(** ** simple_agent.py *)
Module simple_agent.

Definition default_model : string := "anthropic:claude-sonnet-4-20250514".

(** [def main(query: str, model: str = "anthropic:claude-sonnet-4-20250514")] *)
Definition main_params : list param :=
  [mkParam "query" None; mkParam "model" (Some default_model)].

(** Lines 13-22. *)
Definition main_def (query model : string) : prog pyval :=
  agent ← ext (AgentNew model "You are a helpful assistant.");
  result ← ext (AgentRun agent query);
  mret (VDict
    [("response", VStr (data result));
     ("usage", VDict
        [("input_tokens", VInt (request_tokens (usage result)));
         ("output_tokens", VInt (response_tokens (usage result)))])]).

(** The name [main] of the module, called with positional and keyword
    arguments. *)
Definition main (args : list string) (kwargs : list (string * string)) : prog pyval :=
  invoke main_params (fun ns => main_def (ns !!! "query") (ns !!! "model")) args kwargs.

(** Importing the module calls nothing. *)
Definition module_body : prog unit := Ret ().

End simple_agent.

(** ** durable_workflow.py *)
Module durable_workflow.

(** Lines 12, 20, 28 and 36: what importing the module does. *)
Definition module_body : prog unit :=
  database_url ← os_environ_get "DATABASE_URL";
  ext (DbosLaunch database_url);;
  ext (DbosRegister Step "do_research");;
  ext (DbosRegister Step "summarize");;
  ext (DbosRegister Workflow "main").

(** Lines 23-26. *)
Definition do_research_def (query : string) : prog string :=
  agent ← ext (AgentNew "anthropic:claude-sonnet-4-20250514"
                        "Research the topic thoroughly.");
  result ← ext (AgentRun agent query);
  mret (data result).

Definition do_research : string -> prog string :=
  dbos_step "do_research" do_research_def.

(** Lines 31-34. *)
Definition summarize_def (research : string) : prog string :=
  agent ← ext (AgentNew "anthropic:claude-sonnet-4-20250514"
                        "Summarize in 2-3 sentences.");
  result ← ext (AgentRun agent ("Summarize: " +:+ research));
  mret (data result).

Definition summarize : string -> prog string :=
  dbos_step "summarize" summarize_def.

(** [def main(query: str)] *)
Definition main_params : list param := [mkParam "query" None].

(** Lines 42-49. *)
Definition main_def (query : string) : prog pyval :=
  research ← do_research query;
  summary ← summarize research;
  mret (VDict
    [("query", VStr query);
     ("research", VStr research);
     ("summary", VStr summary)]).

Definition main : list string -> list (string * string) -> prog pyval :=
  dbos_workflow "main" main_params (fun ns => main_def (ns !!! "query")).

End durable_workflow.

(** ** The two examples side by side *)
Inductive example : Type := simple_agent_py | durable_workflow_py.

Definition import_module (ex : example) : prog unit :=
  match ex with
  | simple_agent_py => simple_agent.module_body
  | durable_workflow_py => durable_workflow.module_body
  end.

Definition entry_point (ex : example)
    : list string -> list (string * string) -> prog pyval :=
  match ex with
  | simple_agent_py => simple_agent.main
  | durable_workflow_py => durable_workflow.main
  end.

(** The host imports the module and then calls its [main]. *)
Definition script (ex : example) (args : list string)
    (kwargs : list (string * string)) : prog pyval :=
  import_module ex;; entry_point ex args kwargs.


(** The exception of the last entry of a trace, when that entry is a library
    call that raised. *)
Definition last_failure (t : trace) : option pyexn :=
  match last t with
  | Some (Called _ (inl e)) => Some e
  | _ => None
  end.

(** What a run did, as seen from the scripts: a step was entered with an
    argument, an [agent.run] was awaited with a prompt, it resolved to a
    text, a step handed back its value.  A call that raised leaves only its
    beginning. *)
Inductive moment : Type :=
| StepBegan (name : string) (arg : string)
| RunBegan (prompt : string)
| RunReturned (text : string)
| StepEnded (name : string) (out : string).

Definition moments (en : entry) : list moment :=
  match en with
  | Read _ _ => []
  | Called c r =>
      match c in call X return pyexn + X -> list moment with
      | StepBegin name arg =>
          fun r => match r with inr _ => [StepBegan name arg] | inl _ => [] end
      | StepEnd name out =>
          fun r => match r with inr _ => [StepEnded name out] | inl _ => [] end
      | AgentRun _ prompt =>
          fun r =>
            match r with
            | inr res => [RunBegan prompt; RunReturned (data res)]
            | inl _ => [RunBegan prompt]
            end
      | _ => fun _ => []
      end r
  end.

Definition timeline (t : trace) : list moment := flat_map moments t.

(** The timeline of a one-shot run that gets the text [x]. *)
Definition one_shot_timeline (query x : string) : list moment :=
  [RunBegan query; RunReturned x].

(** The timeline of a durable run whose research gets [x] and whose summary
    gets [y]. *)
Definition durable_timeline (query x y : string) : list moment :=
  [StepBegan "do_research" query;
   RunBegan query;
   RunReturned x;
   StepEnded "do_research" x;
   StepBegan "summarize" x;
   RunBegan ("Summarize: " +:+ x);
   RunReturned y;
   StepEnded "summarize" y].

(** ** Sample data *)

Definition sample_research : AgentRunResult :=
  mkAgentRunResult "Tides follow the moon." (mkUsage 12%Z 40%Z).

Definition sample_summary : AgentRunResult :=
  mkAgentRunResult "The moon drives the tides." (mkUsage 55%Z 9%Z).

Definition sample_error : pyexn := LibraryError "ModelHTTPError" "503".

(** ** More readings of a trace *)

(** The agents the constructor handed back, in order. *)
Definition agents_built (t : trace) : list Agent :=
  flat_map (fun en =>
    match en with
    | Called c r =>
        match c in call X return pyexn + X -> list Agent with
        | AgentNew _ _ => fun r => match r with inr a => [a] | inl _ => [] end
        | _ => fun _ => []
        end r
    | Read _ _ => []
    end) t.

(** The texts the agent runs resolved to, in order. *)
Definition agent_texts (t : trace) : list string :=
  flat_map (fun c => match snd c with inr res => [data res] | inl _ => [] end)
    (agent_runs t).

(** The functions handed to a dbos decorator, in order. *)
Definition registrations (t : trace) : list (unit_kind * string) :=
  flat_map (fun en =>
    match en with
    | Called c _ =>
        match c with
        | DbosRegister kind name => [(kind, name)]
        | _ => []
        end
    | Read _ _ => []
    end) t.

(** The number of calls into dbos. *)
Definition dbos_calls (t : trace) : nat :=
  length (flat_map (fun en =>
    match en with
    | Called c _ =>
        match c with
        | AgentNew _ _ | AgentRun _ _ => []
        | _ => [()]
        end
    | Read _ _ => []
    end) t).

(** More sample data: the replies of [sample_research] and [sample_summary]
    with other token counts. *)
Definition sample_research_recounted : AgentRunResult :=
  mkAgentRunResult "Tides follow the moon." (mkUsage 700%Z 1%Z).

Definition sample_summary_recounted : AgentRunResult :=
  mkAgentRunResult "The moon drives the tides." (mkUsage 0%Z 0%Z).

(** * Properties *)

(** ** Running *)

Lemma run_bind {A B : Type} (environ : gmap string string) (o : oracle)
    (p : prog A) (f : A -> prog B) (h : trace) :
  run environ o h (bind p f) =
    match run environ o h p with
    | (h', inl e) => (h', inl e)
    | (h', inr a) => run environ o h' (f a)
    end.
Proof.
  revert B f h.
  induction p as [A a | A e | A key k IH | A X c k IH | A X body _ handler _ k IH];
    intros B f h; simpl.
  - reflexivity.
  - reflexivity.
  - apply IH.
  - destruct (o h X c) as [e | x]; [reflexivity | apply IH].
  - destruct (run environ o h body) as [h' [e | x]]; [| apply IH].
    destruct (run environ o h' (handler e)) as [h'' [e' | x]];
      [reflexivity | apply IH].
Qed.

(** A handler does swallow a failure: a library call that raises inside a
    [Try] whose handler returns [v] leaves a run that returns [v]. *)
Lemma try_replaces_failure {X : Type} (environ : gmap string string)
    (o : oracle) (h : trace) (c : call X) (e : pyexn) (v : X) :
  o h X c = inl e ->
  run environ o h (Try (ext c) (fun _ => Ret v) Ret)
    = (h ++ [Called c (inl e)], inr v).
Proof. intros Hfail. simpl. rewrite Hfail. reflexivity. Qed.

(** ** Calls that bind *)

Lemma simple_main_default (q : string) :
  simple_agent.main [q] [] = simple_agent.main_def q simple_agent.default_model.
Proof. reflexivity. Qed.

Lemma simple_main_positional (q m : string) :
  simple_agent.main [q; m] [] = simple_agent.main_def q m.
Proof. reflexivity. Qed.

Lemma simple_main_keyword (q m : string) :
  simple_agent.main [q] [("model", m)] = simple_agent.main_def q m.
Proof. reflexivity. Qed.

Lemma durable_invoke_query (q : string) :
  invoke durable_workflow.main_params
    (fun ns => durable_workflow.main_def (ns !!! "query")) [q] []
  = durable_workflow.main_def q.
Proof. reflexivity. Qed.

(** ** Stepping through a run against an arbitrary oracle *)

Ltac oracle_step :=
  match goal with
  | |- context [match ?o ?h ?X ?c with _ => _ end] =>
      is_var o; destruct (o h X c) as [?e | ?x] eqn:?
  end.

Ltac run_through := cbn; repeat (oracle_step; cbn).

(** The same for a whole script called with any arguments: the binding of
    the arguments is split into its two outcomes first. *)
Ltac script_open args kwargs :=
  unfold script, entry_point, import_module,
    simple_agent.module_body, durable_workflow.module_body,
    simple_agent.main, durable_workflow.main, dbos_workflow, invoke;
  match goal with
  | |- context [bind_args ?ps args kwargs] =>
      destruct (bind_args ps args kwargs) as [?why | ?ns]
  end.

Ltac script_through args kwargs := script_open args kwargs; run_through.

(** One oracle at a time, for goals that compare two runs: [fails] closes
    the branches in which the oracle raised. *)
Ltac oracle_cases o fails :=
  cbn;
  repeat (match goal with
          | |- context [match o ?h ?X ?c with _ => _ end] =>
              destruct (o h X c) as [?e | ?x] eqn:?
          end; cbn; try fails).

Lemma prefixed_differs (r : string) : "Summarize: " +:+ r <> r.
Proof.
  intros H. apply (f_equal String.length) in H.
  cbv [String.append] in H. cbn [String.length] in H. lia.
Qed.

(** ** The one-shot example *)

(** C2: called with a query and the model left at its default, the one-shot
    example returns a mapping whose "response" is the text of the agent run
    and whose "usage" holds the run's request and response token counts, for
    every mocked reply; against any libraries at all, a returned mapping is
    built from the reply of the single run on the query. *)
Theorem one_shot_passes_reply_through (query : string)
    (environ : gmap string string) :
  (forall reply : AgentRunResult,
     agent_news (fst (run environ (mock [reply]) [] (simple_agent.main [query] [])))
       = [("anthropic:claude-sonnet-4-20250514", "You are a helpful assistant.")] /\
     (exists v,
        snd (run environ (mock [reply]) [] (simple_agent.main [query] [])) = inr v /\
        dict_keys v = ["response"; "usage"] /\
        dict_get "response" v = Some (VStr (data reply)) /\
        (dict_get "usage" v ≫= dict_get "input_tokens")
          = Some (VInt (request_tokens (usage reply))) /\
        (dict_get "usage" v ≫= dict_get "output_tokens")
          = Some (VInt (response_tokens (usage reply))))) /\
  (forall o : oracle,
     match snd (run environ o [] (simple_agent.main [query] [])) with
     | inr v =>
         exists agent reply,
           agent_runs (fst (run environ o [] (simple_agent.main [query] [])))
             = [(agent, query, inr reply)] /\
           v = VDict
                 [("response", VStr (data reply));
                  ("usage", VDict
                     [("input_tokens", VInt (request_tokens (usage reply)));
                      ("output_tokens", VInt (response_tokens (usage reply)))])]
     | inl _ => True
     end).
Proof.
  split.
  - intros reply. split; [reflexivity |].
    eexists. split; [reflexivity |]. repeat split.
  - intros o. rewrite simple_main_default. unfold simple_agent.main_def.
    run_through; eauto.
Qed.

(** ** The durable example *)

(** C1: for every query and every pair of mocked agent replies, the
    summarize step is entered with exactly the string the research step
    returned, and the workflow returns the mapping with the three fields
    "query", "research" and "summary" holding the input query, the research
    step's string and the summarize step's string; against any libraries at
    all, a returned mapping is built the same way from what the two steps
    handed back. *)
Theorem durable_passes_research_to_summarize (query : string)
    (environ : gmap string string) :
  (forall ra rb : AgentRunResult,
     step_outputs (fst (run environ (mock [ra; rb]) [] (durable_workflow.main [query] [])))
       = [("do_research", data ra); ("summarize", data rb)] /\
     step_inputs (fst (run environ (mock [ra; rb]) [] (durable_workflow.main [query] [])))
       = [("do_research", query); ("summarize", data ra)] /\
     snd (run environ (mock [ra; rb]) [] (durable_workflow.main [query] []))
       = inr (VDict
                [("query", VStr query);
                 ("research", VStr (data ra));
                 ("summary", VStr (data rb))])) /\
  (forall o : oracle,
     match snd (run environ o [] (durable_workflow.main [query] [])) with
     | inr v =>
         exists research summary,
           step_outputs (fst (run environ o [] (durable_workflow.main [query] [])))
             = [("do_research", research); ("summarize", summary)] /\
           step_inputs (fst (run environ o [] (durable_workflow.main [query] [])))
             = [("do_research", query); ("summarize", research)] /\
           v = VDict
                 [("query", VStr query);
                  ("research", VStr research);
                  ("summary", VStr summary)]
     | inl _ => True
     end).
Proof.
  split.
  - intros ra rb. repeat split.
  - intros o. unfold durable_workflow.main, dbos_workflow.
    rewrite durable_invoke_query.
    run_through; eauto.
Qed.

(** C5: in the summarize step the agent is run on "Summarize: " followed by
    the research text, never on the research text itself: this holds of
    every run the step awaits, whatever the libraries answer, and with a
    mocked reply the step does await that run. *)
Theorem summarize_prompt_is_prefixed (research : string)
    (environ : gmap string string) :
  (forall o : oracle,
     Forall (fun c => snd (fst c) = "Summarize: " +:+ research)
       (agent_runs (fst (run environ o [] (durable_workflow.summarize research))))) /\
  (forall reply : AgentRunResult,
     agent_runs (fst (run environ (mock [reply]) [] (durable_workflow.summarize research)))
       = [(mkAgent "anthropic:claude-sonnet-4-20250514" "Summarize in 2-3 sentences.",
           "Summarize: " +:+ research,
           inr reply)]) /\
  "Summarize: " +:+ research <> research.
Proof.
  split; [| split].
  - intros o. unfold durable_workflow.summarize, dbos_step.
    run_through; repeat constructor.
  - intros reply. reflexivity.
  - apply prefixed_differs.
Qed.

(** C3, as the code has it: once both steps have completed, the value the
    workflow returns is a plain dict with the three keys "query", "research"
    and "summary", holding as strings the original query, the research text
    and the summary text, that is, the fields a ResearchResult of the three
    would have; it is never an instance of ResearchResult, a class the
    script declares and does not instantiate. *)
Theorem durable_returns_dict_with_ResearchResult_fields (query : string)
    (environ : gmap string string) :
  (forall ra rb : AgentRunResult,
     step_outputs (fst (run environ (mock [ra; rb]) [] (durable_workflow.main [query] [])))
       = [("do_research", data ra); ("summarize", data rb)] /\
     snd (run environ (mock [ra; rb]) [] (durable_workflow.main [query] []))
       = inr (VDict (ResearchResult_fields
                       (mkResearchResult query (data ra) (data rb))))) /\
  (forall o : oracle,
     match snd (run environ o [] (durable_workflow.main [query] [])) with
     | inr v =>
         is_dict v = true /\
         is_ResearchResult v = false /\
         dict_keys v = ["query"; "research"; "summary"] /\
         exists research summary,
           step_outputs (fst (run environ o [] (durable_workflow.main [query] [])))
             = [("do_research", research); ("summarize", summary)] /\
           v = VDict (ResearchResult_fields
                        (mkResearchResult query research summary))
     | inl _ => True
     end).
Proof.
  split.
  - intros ra rb. split; reflexivity.
  - intros o. unfold durable_workflow.main, dbos_workflow.
    rewrite durable_invoke_query.
    run_through; eauto 10.
Qed.

(** C3, as stated, fails: on the query "tides", with both steps completed,
    the workflow returns a dict and no ResearchResult. *)
Lemma durable_result_is_not_a_ResearchResult :
  step_outputs (fst (run ∅ (mock [sample_research; sample_summary]) []
                       (durable_workflow.main ["tides"] [])))
    = [("do_research", "Tides follow the moon.");
       ("summarize", "The moon drives the tides.")] /\
  snd (run ∅ (mock [sample_research; sample_summary]) []
         (durable_workflow.main ["tides"] []))
    = inr (VDict [("query", VStr "tides");
                  ("research", VStr "Tides follow the moon.");
                  ("summary", VStr "The moon drives the tides.")]) /\
  ~ (exists rr : ResearchResult,
       snd (run ∅ (mock [sample_research; sample_summary]) []
              (durable_workflow.main ["tides"] []))
         = inr (VResearchResult rr)).
Proof.
  split; [reflexivity |]. split; [reflexivity |].
  intros [rr Hrr]. discriminate Hrr.
Qed.

(** C4, as the code has it: the one-shot entry point takes a query and an
    optional model identifier, and the identifier given (by position or by
    keyword), or "anthropic:claude-sonnet-4-20250514" when none is, is the
    one passed to the agent constructor; the durable entry point takes the
    query alone, every agent its steps construct gets the fixed identifier
    "anthropic:claude-sonnet-4-20250514", and a call that supplies a model
    raises TypeError before any agent is constructed. *)
Theorem model_identifier_passed_to_constructor (query model : string)
    (environ : gmap string string) (o : oracle) :
  map param_name simple_agent.main_params = ["query"; "model"] /\
  agent_news (fst (run environ o [] (simple_agent.main [query] [])))
    = [("anthropic:claude-sonnet-4-20250514", "You are a helpful assistant.")] /\
  agent_news (fst (run environ o [] (simple_agent.main [query; model] [])))
    = [(model, "You are a helpful assistant.")] /\
  agent_news (fst (run environ o [] (simple_agent.main [query] [("model", model)])))
    = [(model, "You are a helpful assistant.")] /\
  map param_name durable_workflow.main_params = ["query"] /\
  Forall (fun c => fst c = "anthropic:claude-sonnet-4-20250514")
    (agent_news (fst (run environ o [] (durable_workflow.main [query] [])))) /\
  agent_news (fst (run environ (mock [sample_research; sample_summary]) []
                     (durable_workflow.main [query] [])))
    = [("anthropic:claude-sonnet-4-20250514", "Research the topic thoroughly.");
       ("anthropic:claude-sonnet-4-20250514", "Summarize in 2-3 sentences.")] /\
  agent_news (fst (run environ o [] (durable_workflow.main [query] [("model", model)])))
    = [] /\
  agent_news (fst (run environ o [] (durable_workflow.main [query; model] [])))
    = [] /\
  snd (run environ (mock [sample_research; sample_summary]) []
         (durable_workflow.main [query] [("model", model)]))
    = inl (TypeError (UnexpectedKeyword "model")) /\
  snd (run environ (mock [sample_research; sample_summary]) []
         (durable_workflow.main [query; model] []))
    = inl (TypeError (TooManyPositional 2)).
Proof.
  split; [reflexivity |].
  split; [rewrite simple_main_default; unfold simple_agent.main_def;
          run_through; reflexivity |].
  split; [rewrite simple_main_positional; unfold simple_agent.main_def;
          run_through; reflexivity |].
  split; [rewrite simple_main_keyword; unfold simple_agent.main_def;
          run_through; reflexivity |].
  split; [reflexivity |].
  split.
  { unfold durable_workflow.main, dbos_workflow.
    rewrite durable_invoke_query.
    run_through; repeat constructor. }
  split; [reflexivity |].
  split.
  { unfold durable_workflow.main, dbos_workflow.
    change (invoke durable_workflow.main_params _ [query] [("model", model)])
      with (@Raise pyval (TypeError (UnexpectedKeyword "model"))).
    run_through; reflexivity. }
  split.
  { unfold durable_workflow.main, dbos_workflow.
    change (invoke durable_workflow.main_params _ [query; model] [])
      with (@Raise pyval (TypeError (TooManyPositional 2))).
    run_through; reflexivity. }
  split; reflexivity.
Qed.

(** C4, as stated, fails for the durable example: its entry point has no
    model parameter.  Given one by keyword or by position it raises
    TypeError and constructs no agent, and without one its agents get the
    identifier written in the steps. *)
Lemma durable_main_takes_no_model :
  run ∅ (mock [sample_research; sample_summary]) []
      (durable_workflow.main ["tides"] [("model", "openai:gpt-4o")])
    = ([Called (WorkflowBegin "main" ["tides"] [("model", "openai:gpt-4o")]) (inr ())],
       inl (TypeError (UnexpectedKeyword "model"))) /\
  run ∅ (mock [sample_research; sample_summary]) []
      (durable_workflow.main ["tides"; "openai:gpt-4o"] [])
    = ([Called (WorkflowBegin "main" ["tides"; "openai:gpt-4o"] []) (inr ())],
       inl (TypeError (TooManyPositional 2))) /\
  ~ In "openai:gpt-4o"
      (map fst (agent_news (fst (run ∅ (mock [sample_research; sample_summary]) []
                                   (durable_workflow.main ["tides"] []))))).
Proof.
  split; [reflexivity |]. split; [reflexivity |].
  cbn. intros [H | [H | []]]; discriminate H.
Qed.

(** ** Both examples *)

(** C6: whenever a library call fails during a run of either example (the
    import of the module followed by a call of its entry point), the run
    fails with exactly that exception; it is the only failure of the run and
    the last thing the run did, so nothing was caught, retried or replaced
    by a result. *)
Theorem errors_propagate_unmodified (ex : example)
    (environ : gmap string string) (o : oracle)
    (args : list string) (kwargs : list (string * string)) (e : pyexn) :
  In e (failures (fst (run environ o [] (script ex args kwargs)))) ->
  snd (run environ o [] (script ex args kwargs)) = inl e /\
  failures (fst (run environ o [] (script ex args kwargs))) = [e] /\
  last_failure (fst (run environ o [] (script ex args kwargs))) = Some e.
Proof.
  destruct ex; script_through args kwargs;
    intros Hin; cbn in Hin;
    first [ destruct Hin as [<- | []]; repeat split | contradiction ].
Qed.

(** The research call of a durable run on "tides" raises: the run ends with
    that exception. *)
Lemma errors_propagate_unmodified_witness :
  snd (run ∅ (mock_failing_at 7 sample_error [sample_research; sample_summary]) []
         (script durable_workflow_py ["tides"] [])) = inl sample_error /\
  failures (fst (run ∅ (mock_failing_at 7 sample_error [sample_research; sample_summary]) []
                   (script durable_workflow_py ["tides"] []))) = [sample_error] /\
  last_failure (fst (run ∅ (mock_failing_at 7 sample_error [sample_research; sample_summary]) []
                       (script durable_workflow_py ["tides"] []))) = Some sample_error.
Proof.
  apply (errors_propagate_unmodified durable_workflow_py ∅
           (mock_failing_at 7 sample_error [sample_research; sample_summary])
           ["tides"] [] sample_error).
  vm_compute. left. reflexivity.
Defined.

(** C7, as the code has it: in every run the agent calls are awaited one
    after the other, in the one order the script fixes.  A one-shot run
    awaits at most one agent call; a durable run at most two, the research
    call first and the summarize call only once the research call has
    returned and its step has ended, with a prompt built from the returned
    text; no other order occurs.  A run that returns a result has awaited
    exactly one call (one-shot) or exactly two (durable), and a durable run
    whose research call raises awaits that call only.  The bounds hold of
    calls with any arguments. *)
Theorem agent_calls_in_sequence (query : string)
    (environ : gmap string string) (o : oracle) :
  (exists x,
     timeline (fst (run environ o [] (simple_agent.main [query] [])))
       `prefix_of` one_shot_timeline query x /\
     match snd (run environ o [] (simple_agent.main [query] [])) with
     | inr _ =>
         timeline (fst (run environ o [] (simple_agent.main [query] [])))
           = one_shot_timeline query x /\
         length (agent_runs (fst (run environ o [] (simple_agent.main [query] [])))) = 1%nat
     | inl _ =>
         (length (agent_runs (fst (run environ o [] (simple_agent.main [query] [])))) <= 1)%nat
     end) /\
  (exists x y,
     timeline (fst (run environ o [] (durable_workflow.main [query] [])))
       `prefix_of` durable_timeline query x y /\
     match snd (run environ o [] (durable_workflow.main [query] [])) with
     | inr _ =>
         timeline (fst (run environ o [] (durable_workflow.main [query] [])))
           = durable_timeline query x y /\
         length (agent_runs (fst (run environ o [] (durable_workflow.main [query] [])))) = 2%nat
     | inl _ =>
         (length (agent_runs (fst (run environ o [] (durable_workflow.main [query] [])))) <= 2)%nat
     end) /\
  match agent_runs (fst (run environ o [] (durable_workflow.main [query] []))) with
  | (_, _, inl _) :: more => more = []
  | _ => True
  end /\
  (forall (ex : example) (args : list string) (kwargs : list (string * string)),
     match snd (run environ o [] (entry_point ex args kwargs)) with
     | inr _ =>
         length (agent_runs (fst (run environ o [] (entry_point ex args kwargs))))
           = match ex with simple_agent_py => 1%nat | durable_workflow_py => 2%nat end
     | inl _ =>
         (length (agent_runs (fst (run environ o [] (entry_point ex args kwargs))))
            <= match ex with simple_agent_py => 1 | durable_workflow_py => 2 end)%nat
     end).
Proof.
  split; [| split; [| split]].
  - rewrite simple_main_default. unfold simple_agent.main_def.
    run_through;
      first
        [ by (exists ""; split; [eexists; reflexivity | lia])
        | by (eexists; split; [eexists; reflexivity | first [lia | split; reflexivity]]) ].
  - unfold durable_workflow.main, dbos_workflow.
    rewrite durable_invoke_query.
    run_through;
      first
        [ by (exists "", ""; split; [eexists; reflexivity | lia])
        | by (eexists; exists ""; split; [eexists; reflexivity | lia])
        | by (eexists; eexists; split;
              [eexists; reflexivity | first [lia | split; reflexivity]]) ].
  - unfold durable_workflow.main, dbos_workflow.
    rewrite durable_invoke_query.
    run_through; reflexivity.
  - intros ex args kwargs.
    destruct ex; script_through args kwargs; first [reflexivity | lia].
Qed.

(** C7, as stated, fails: when the research call raises, the durable example
    has awaited one agent call and the summarize call never begins. *)
Lemma durable_awaits_one_call_when_research_fails :
  agent_runs (fst (run ∅ (mock_failing_at 3 sample_error [sample_research; sample_summary]) []
                     (durable_workflow.main ["tides"] [])))
    = [(mkAgent "anthropic:claude-sonnet-4-20250514" "Research the topic thoroughly.",
        "tides", inl sample_error)] /\
  length (agent_runs (fst (run ∅ (mock_failing_at 3 sample_error [sample_research; sample_summary]) []
                             (durable_workflow.main ["tides"] [])))) <> 2%nat /\
  snd (run ∅ (mock_failing_at 3 sample_error [sample_research; sample_summary]) []
         (durable_workflow.main ["tides"] [])) = inl sample_error.
Proof.
  split; [reflexivity |]. split; [| reflexivity].
  vm_compute. discriminate.
Qed.

(** C8: only the durable example reads the process environment.  Whatever
    the arguments and the libraries, a run of the one-shot script reads no
    environment variable and launches no engine, while a run of the durable
    script reads DATABASE_URL, once, and launches the engine, once, with the
    value the environment holds for it. *)
Theorem only_durable_reads_environment (environ : gmap string string)
    (o : oracle) (args : list string) (kwargs : list (string * string)) :
  environ_reads (fst (run environ o [] (script simple_agent_py args kwargs))) = [] /\
  launches (fst (run environ o [] (script simple_agent_py args kwargs))) = [] /\
  environ_reads (fst (run environ o [] (script durable_workflow_py args kwargs)))
    = ["DATABASE_URL"] /\
  launches (fst (run environ o [] (script durable_workflow_py args kwargs)))
    = [environ !! "DATABASE_URL"].
Proof.
  repeat split; script_through args kwargs; reflexivity.
Qed.

(** C10: with DATABASE_URL unset, importing the durable module still calls
    the engine's initializer, with no connection string (None), as the first
    library call of the run, ahead of anything the workflow does; the import
    raises nothing of its own, so it fails only if a library call fails. *)
Theorem launch_without_database_url (environ : gmap string string)
    (o : oracle) (args : list string) (kwargs : list (string * string)) :
  environ !! "DATABASE_URL" = None ->
  launches (fst (run environ o [] durable_workflow.module_body)) = [None] /\
  (exists reply,
     take 2 (fst (run environ o [] (script durable_workflow_py args kwargs)))
       = [Read "DATABASE_URL" None; Called (DbosLaunch None) reply]) /\
  snd (run environ (mock []) [] durable_workflow.module_body) = inr () /\
  match snd (run environ o [] durable_workflow.module_body) with
  | inr _ => failures (fst (run environ o [] durable_workflow.module_body)) = []
  | inl e => failures (fst (run environ o [] durable_workflow.module_body)) = [e]
  end.
Proof.
  intros Hunset. split; [| split; [| split]].
  - unfold durable_workflow.module_body. cbn. rewrite Hunset.
    repeat (oracle_step; cbn); reflexivity.
  - script_through args kwargs; rewrite Hunset; eexists; reflexivity.
  - reflexivity.
  - unfold durable_workflow.module_body. run_through; reflexivity.
Qed.

(** An empty environment, mocked libraries, the query "tides". *)
Lemma launch_without_database_url_witness :
  launches (fst (run ∅ (mock [sample_research; sample_summary]) []
                   durable_workflow.module_body)) = [None] /\
  (exists reply,
     take 2 (fst (run ∅ (mock [sample_research; sample_summary]) []
                    (script durable_workflow_py ["tides"] [])))
       = [Read "DATABASE_URL" None; Called (DbosLaunch None) reply]) /\
  snd (run ∅ (mock []) [] durable_workflow.module_body) = inr () /\
  match snd (run ∅ (mock [sample_research; sample_summary]) []
               durable_workflow.module_body) with
  | inr _ => failures (fst (run ∅ (mock [sample_research; sample_summary]) []
                              durable_workflow.module_body)) = []
  | inl e => failures (fst (run ∅ (mock [sample_research; sample_summary]) []
                              durable_workflow.module_body)) = [e]
  end.
Proof.
  apply (launch_without_database_url ∅ (mock [sample_research; sample_summary])
           ["tides"] []).
  reflexivity.
Defined.

(** C9: the mapping an entry point returns is a function of its arguments
    and of what the agent calls returned.  Two runs of the same example on
    the same arguments, in any two environments and against any two sets of
    libraries, that both return and in which the agent calls gave the same
    results, return identical mappings. *)
Theorem entry_points_deterministic (ex : example)
    (args : list string) (kwargs : list (string * string))
    (environ1 environ2 : gmap string string) (o1 o2 : oracle) (v1 v2 : pyval) :
  snd (run environ1 o1 [] (entry_point ex args kwargs)) = inr v1 ->
  snd (run environ2 o2 [] (entry_point ex args kwargs)) = inr v2 ->
  map snd (agent_runs (fst (run environ1 o1 [] (entry_point ex args kwargs))))
    = map snd (agent_runs (fst (run environ2 o2 [] (entry_point ex args kwargs)))) ->
  v1 = v2.
Proof.
  destruct ex; script_open args kwargs;
    oracle_cases o1 ltac:(by intros H);
    oracle_cases o2 ltac:(by intros _ H);
    intros; congruence.
Qed.

(** Two durable runs on "tides" that differ in their environment and in
    their libraries but get the same two replies. *)
Lemma entry_points_deterministic_witness :
  VDict [("query", VStr "tides");
         ("research", VStr "Tides follow the moon.");
         ("summary", VStr "The moon drives the tides.")]
  = VDict [("query", VStr "tides");
           ("research", VStr (data sample_research));
           ("summary", VStr (data sample_summary))].
Proof.
  apply (entry_points_deterministic durable_workflow_py ["tides"] []
           ∅ (<["DATABASE_URL" := "postgresql://db/dbos"]> ∅)
           (mock [sample_research; sample_summary])
           (mock_failing_at 40 sample_error [sample_research; sample_summary; sample_research])).
  - reflexivity.
  - reflexivity.
  - reflexivity.
Defined.

(** * Further properties of the two scripts *)

(** ** The research step *)

(** X1: the research step runs its agent on the query as it is, on an agent
    built with the system prompt "Research the topic thoroughly.", and hands
    back the text of the reply; the token counts of the reply are dropped. *)
Theorem do_research_runs_query_verbatim (query : string)
    (environ : gmap string string) :
  (forall o : oracle,
     Forall (fun c => snd (fst c) = query)
       (agent_runs (fst (run environ o [] (durable_workflow.do_research query)))) /\
     match snd (run environ o [] (durable_workflow.do_research query)) with
     | inr out =>
         agent_texts (fst (run environ o [] (durable_workflow.do_research query)))
           = [out]
     | inl _ => True
     end) /\
  (forall reply : AgentRunResult,
     agent_news (fst (run environ (mock [reply]) [] (durable_workflow.do_research query)))
       = [("anthropic:claude-sonnet-4-20250514", "Research the topic thoroughly.")] /\
     agent_runs (fst (run environ (mock [reply]) [] (durable_workflow.do_research query)))
       = [(mkAgent "anthropic:claude-sonnet-4-20250514" "Research the topic thoroughly.",
           query, inr reply)] /\
     snd (run environ (mock [reply]) [] (durable_workflow.do_research query))
       = inr (data reply)).
Proof.
  split.
  - intros o. unfold durable_workflow.do_research, dbos_step.
    run_through; repeat constructor.
  - intros reply. repeat split.
Qed.

(** ** Agents *)

(** X2: every agent run is made on the agent the constructor just handed
    back, whatever that agent is, and every agent that gets constructed is
    run: in any run of either script, the agents of the runs are exactly the
    agents built, in order. *)
Theorem runs_use_the_agent_built (ex : example)
    (environ : gmap string string) (o : oracle)
    (args : list string) (kwargs : list (string * string)) :
  map (fun c => fst (fst c))
      (agent_runs (fst (run environ o [] (script ex args kwargs))))
    = agents_built (fst (run environ o [] (script ex args kwargs))).
Proof.
  destruct ex; script_through args kwargs; reflexivity.
Qed.

(** X3: whatever the arguments, the user's input never reaches a system
    prompt.  The agents of a one-shot run are built with "You are a helpful
    assistant."; those of a durable run with "Research the topic
    thoroughly." and then "Summarize in 2-3 sentences.", in that order. *)
Theorem system_prompts_are_fixed (environ : gmap string string) (o : oracle)
    (args : list string) (kwargs : list (string * string)) :
  map snd (agent_news (fst (run environ o [] (script simple_agent_py args kwargs))))
    `prefix_of` ["You are a helpful assistant."] /\
  map snd (agent_news (fst (run environ o [] (script durable_workflow_py args kwargs))))
    `prefix_of` ["Research the topic thoroughly."; "Summarize in 2-3 sentences."].
Proof.
  split; script_through args kwargs; eexists; reflexivity.
Qed.

(** ** What the durable workflow keeps and what it drops *)

(** X4: the durable workflow drops the token counts.  Two runs on the same
    arguments that both return and whose agent runs resolved to the same
    texts return identical mappings, whatever usage the replies carried. *)
Theorem durable_result_ignores_usage
    (args : list string) (kwargs : list (string * string))
    (environ1 environ2 : gmap string string) (o1 o2 : oracle) (v1 v2 : pyval) :
  snd (run environ1 o1 [] (durable_workflow.main args kwargs)) = inr v1 ->
  snd (run environ2 o2 [] (durable_workflow.main args kwargs)) = inr v2 ->
  agent_texts (fst (run environ1 o1 [] (durable_workflow.main args kwargs)))
    = agent_texts (fst (run environ2 o2 [] (durable_workflow.main args kwargs))) ->
  v1 = v2.
Proof.
  script_open args kwargs;
    oracle_cases o1 ltac:(by intros H);
    oracle_cases o2 ltac:(by intros _ H);
    intros; congruence.
Qed.

(** Replies with the same texts and other token counts. *)
Lemma durable_result_ignores_usage_witness :
  VDict [("query", VStr "tides");
         ("research", VStr (data sample_research));
         ("summary", VStr (data sample_summary))]
  = VDict [("query", VStr "tides");
           ("research", VStr (data sample_research_recounted));
           ("summary", VStr (data sample_summary_recounted))].
Proof.
  apply (durable_result_ignores_usage ["tides"] [] ∅ ∅
           (mock [sample_research; sample_summary])
           (mock [sample_research_recounted; sample_summary_recounted])).
  - reflexivity.
  - reflexivity.
  - reflexivity.
Defined.

(** X5: the text the summarizer is asked about is the text the workflow
    reports as its research: when the workflow returns, its agent runs were
    prompted with the query and then with "Summarize: " followed by the
    "research" field of the result, and they resolved to the "research" and
    "summary" fields. *)
Theorem summarizer_sees_the_reported_research (query : string)
    (environ : gmap string string) (o : oracle) :
  match snd (run environ o [] (durable_workflow.main [query] [])) with
  | inr v =>
      exists x y,
        dict_get "research" v = Some (VStr x) /\
        dict_get "summary" v = Some (VStr y) /\
        dict_get "query" v = Some (VStr query) /\
        map (fun c => snd (fst c))
            (agent_runs (fst (run environ o [] (durable_workflow.main [query] []))))
          = [query; "Summarize: " +:+ x] /\
        agent_texts (fst (run environ o [] (durable_workflow.main [query] [])))
          = [x; y]
  | inl _ => True
  end.
Proof.
  unfold durable_workflow.main, dbos_workflow.
  rewrite durable_invoke_query.
  run_through; eauto 10.
Qed.

(** ** Importing the durable module *)

(** X6: importing the durable module hands do_research and summarize to the
    step decorator and main to the workflow decorator, in that order.  In any run of the durable script either all three
    are registered or nothing of the workflow has run; the one-shot script
    registers nothing. *)
Theorem import_registers_steps_and_workflow (environ : gmap string string)
    (o : oracle) (args : list string) (kwargs : list (string * string)) :
  registrations (fst (run environ o [] (script simple_agent_py args kwargs))) = [] /\
  registrations (fst (run environ o [] (script durable_workflow_py args kwargs)))
    `prefix_of` [(Step, "do_research"); (Step, "summarize"); (Workflow, "main")] /\
  (registrations (fst (run environ o [] (script durable_workflow_py args kwargs)))
     = [(Step, "do_research"); (Step, "summarize"); (Workflow, "main")] \/
   (step_inputs (fst (run environ o [] (script durable_workflow_py args kwargs))) = [] /\
    agent_news (fst (run environ o [] (script durable_workflow_py args kwargs))) = [])) /\
  registrations (fst (run environ (mock []) [] durable_workflow.module_body))
    = [(Step, "do_research"); (Step, "summarize"); (Workflow, "main")].
Proof.
  split; [script_through args kwargs; reflexivity |].
  split; [script_through args kwargs; eexists; reflexivity |].
  split; [script_through args kwargs; auto |].
  reflexivity.
Qed.

(** X7: when the launch of the engine raises, the import of the durable
    module stops there: nothing is registered, the workflow is not called,
    no agent is built, and the run fails with the engine's exception. *)
Theorem failed_launch_stops_the_script (environ : gmap string string)
    (o : oracle) (args : list string) (kwargs : list (string * string))
    (e : pyexn) :
  o [Read "DATABASE_URL" (environ !! "DATABASE_URL")] unit
    (DbosLaunch (environ !! "DATABASE_URL")) = inl e ->
  run environ o [] (script durable_workflow_py args kwargs)
    = ([Read "DATABASE_URL" (environ !! "DATABASE_URL");
        Called (DbosLaunch (environ !! "DATABASE_URL")) (inl e)],
       inl e).
Proof.
  intros Hfail.
  unfold script, import_module, durable_workflow.module_body.
  cbn. rewrite Hfail. reflexivity.
Qed.

(** The engine refuses the launch of a run on "tides" in an environment that
    names a database. *)
Lemma failed_launch_stops_the_script_witness :
  run (<["DATABASE_URL" := "postgresql://db/dbos"]> ∅)
      (mock_failing_at 0 sample_error []) []
      (script durable_workflow_py ["tides"] [])
    = ([Read "DATABASE_URL" (Some "postgresql://db/dbos");
        Called (DbosLaunch (Some "postgresql://db/dbos")) (inl sample_error)],
       inl sample_error).
Proof.
  exact (failed_launch_stops_the_script
           (<["DATABASE_URL" := "postgresql://db/dbos"]> ∅)
           (mock_failing_at 0 sample_error []) ["tides"] [] sample_error
           eq_refl).
Defined.

(** X8: the one-shot script never calls into dbos: whatever the arguments
    and the libraries, its run has no launch, no registration and no step or
    workflow notification. *)
Theorem one_shot_never_calls_dbos (environ : gmap string string) (o : oracle)
    (args : list string) (kwargs : list (string * string)) :
  dbos_calls (fst (run environ o [] (script simple_agent_py args kwargs))) = 0%nat /\
  step_inputs (fst (run environ o [] (script simple_agent_py args kwargs))) = [] /\
  registrations (fst (run environ o [] (script simple_agent_py args kwargs))) = [].
Proof.
  repeat split; script_through args kwargs; reflexivity.
Qed.

(** ** Calls that do not fit the signature of main *)

(** X9: a call of the one-shot main that does not fit its signature raises
    TypeError before anything else happens, with no library call at all: a
    call without a query, a call with more than two positional arguments,
    and a call that gives the query or the model twice. *)
Theorem one_shot_refuses_ill_formed_calls (environ : gmap string string)
    (o : oracle) (q m x q' : string) (more : list string) :
  run environ o [] (simple_agent.main [] [])
    = ([], inl (TypeError (MissingArgument "query"))) /\
  run environ o [] (simple_agent.main [] [("model", m)])
    = ([], inl (TypeError (MissingArgument "query"))) /\
  run environ o [] (simple_agent.main (q :: m :: x :: more) [])
    = ([], inl (TypeError (TooManyPositional (3 + length more)))) /\
  run environ o [] (simple_agent.main [q] [("query", q')])
    = ([], inl (TypeError (MultipleValues "query"))) /\
  run environ o [] (simple_agent.main [q; m] [("model", x)])
    = ([], inl (TypeError (MultipleValues "model"))).
Proof. repeat split. Qed.

(** X10: a keyword that names no parameter is refused.  Given first among
    the keywords, a name other than "query" and "model" makes the one-shot
    main raise TypeError with no library call, and makes the durable main
    raise it before any step is entered or any agent built. *)
Theorem unknown_keyword_is_refused (environ : gmap string string) (o : oracle)
    (args : list string) (k v : string) (kwargs : list (string * string)) :
  k <> "query" ->
  k <> "model" ->
  run environ o [] (simple_agent.main args ((k, v) :: kwargs))
    = ([], inl (TypeError (UnexpectedKeyword k))) /\
  step_inputs (fst (run environ o [] (durable_workflow.main args ((k, v) :: kwargs)))) = [] /\
  agent_news (fst (run environ o [] (durable_workflow.main args ((k, v) :: kwargs)))) = [] /\
  snd (run environ (mock []) [] (durable_workflow.main args ((k, v) :: kwargs)))
    = inl (TypeError (UnexpectedKeyword k)).
Proof.
  intros Hq Hm.
  apply String.eqb_neq in Hq. apply String.eqb_neq in Hm.
  assert (Hone : forall f : gmap string string -> prog pyval,
            invoke simple_agent.main_params f args ((k, v) :: kwargs)
            = Raise (TypeError (UnexpectedKeyword k))).
  { intros f. unfold invoke, bind_args. cbn. rewrite Hq, Hm. reflexivity. }
  assert (Hdur : forall f : gmap string string -> prog pyval,
            invoke durable_workflow.main_params f args ((k, v) :: kwargs)
            = Raise (TypeError (UnexpectedKeyword k))).
  { intros f. unfold invoke, bind_args. cbn. rewrite Hq. reflexivity. }
  unfold simple_agent.main, durable_workflow.main, dbos_workflow.
  rewrite Hone, Hdur.
  repeat split; run_through; reflexivity.
Qed.

(** Calls on "tides" that also name a temperature. *)
Lemma unknown_keyword_is_refused_witness :
  run ∅ (mock [sample_research]) []
      (simple_agent.main ["tides"] [("temperature", "0.2"); ("model", "m")])
    = ([], inl (TypeError (UnexpectedKeyword "temperature"))) /\
  step_inputs (fst (run ∅ (mock [sample_research]) []
                      (durable_workflow.main ["tides"] [("temperature", "0.2"); ("model", "m")]))) = [] /\
  agent_news (fst (run ∅ (mock [sample_research]) []
                     (durable_workflow.main ["tides"] [("temperature", "0.2"); ("model", "m")]))) = [] /\
  snd (run ∅ (mock []) []
         (durable_workflow.main ["tides"] [("temperature", "0.2"); ("model", "m")]))
    = inl (TypeError (UnexpectedKeyword "temperature")).
Proof.
  apply (unknown_keyword_is_refused ∅ (mock [sample_research]) ["tides"]
           "temperature" "0.2" [("model", "m")]).
  - discriminate.
  - discriminate.
Defined.

(** X11: the one-shot main can be called by keyword, as a host that passes
    script inputs by name does: naming the query, or the query and the model
    in either order, runs exactly as the positional call does. *)
Theorem one_shot_keyword_calls (environ : gmap string string) (o : oracle)
    (q m : string) :
  run environ o [] (simple_agent.main [] [("query", q)])
    = run environ o [] (simple_agent.main [q] []) /\
  run environ o [] (simple_agent.main [] [("query", q); ("model", m)])
    = run environ o [] (simple_agent.main [q; m] []) /\
  run environ o [] (simple_agent.main [] [("model", m); ("query", q)])
    = run environ o [] (simple_agent.main [q; m] []) /\
  run environ o [] (simple_agent.main [q] [("model", m)])
    = run environ o [] (simple_agent.main [q; m] []).
Proof. repeat split. Qed.

(** X12: a call of the durable main without a query, or with more than one
    positional argument, enters no step and builds no agent, whatever the
    libraries do; with the engine answering it raises TypeError. *)
Theorem durable_refuses_ill_formed_calls (environ : gmap string string)
    (o : oracle) (q x : string) (more : list string) :
  step_inputs (fst (run environ o [] (durable_workflow.main [] []))) = [] /\
  agent_news (fst (run environ o [] (durable_workflow.main [] []))) = [] /\
  snd (run environ (mock []) [] (durable_workflow.main [] []))
    = inl (TypeError (MissingArgument "query")) /\
  step_inputs (fst (run environ o [] (durable_workflow.main (q :: x :: more) []))) = [] /\
  agent_news (fst (run environ o [] (durable_workflow.main (q :: x :: more) []))) = [] /\
  snd (run environ (mock []) [] (durable_workflow.main (q :: x :: more) []))
    = inl (TypeError (TooManyPositional (2 + length more))).
Proof.
  unfold durable_workflow.main, dbos_workflow.
  repeat split; run_through; reflexivity.
Qed.
